(** * yellowlet: a synchronous bridge to a function running in a Worker thread

    A shallow embedding of [src/yellowlet.ts] (the single-file variant:
    [workerMain], [yellowlet] and its inner [run]; and the two-file variant
    that follows it in the same file) and of [src/isTransferable.ts],
    together with the properties of the bridge that the specification
    states.

    Layout:
    - [JS]       the JavaScript values that cross the bridge, [typeof],
                 truthiness, property reads, strict equality, structured clone;
    - [Transfer] the transfer classifier [isTransferable];
    - [Bridge]   one session (worker, message channel, signal word), the
                 worker-side dispatcher and the caller-side [run];
    - [Host]     the caller's realm: the factory [yellowlet], the wrappers it
                 returns, the finalization registry and the timer queue;
    - [Sibling]  the two-file variant: its worker module and its wrapper. *)

From Stdlib Require Import ZArith String Bool Lia.
From stdpp Require Import base list strings.

Set Warnings "-register-all".
Open Scope string_scope.

(** ** JavaScript values *)
Module JS.

(** Interface objects whose [prototype] can head a prototype chain. *)
Inductive interface :=
| Object | Function | Array | Error
| ArrayBuffer | SharedArrayBuffer | MessagePort
| ReadableStream | WritableStream | TransformStream
| ImageBitmap | OffscreenCanvas
| Other (tag : nat).

Definition interface_eqb (a b : interface) : bool :=
  match a, b with
  | Object, Object | Function, Function | Array, Array | Error, Error
  | ArrayBuffer, ArrayBuffer | SharedArrayBuffer, SharedArrayBuffer
  | MessagePort, MessagePort | ReadableStream, ReadableStream
  | WritableStream, WritableStream | TransformStream, TransformStream
  | ImageBitmap, ImageBitmap | OffscreenCanvas, OffscreenCanvas => true
  | Other m, Other n => Nat.eqb m n
  | _, _ => false
  end.

(** Values.  Numbers are the integers (floating point is not modelled) and
    [VNaN], the number that is not one.  A function value carries what
    [yellowlet] reads from it: its [name], its [length] and the source text
    that [`${f}`] produces.  [VObj] is an object literal, its fields under
    distinct names; [VHost] is a platform object (buffer, port, stream, ...)
    with its prototype chain and an identity. *)
Inductive value :=
| VUndefined
| VNull
| VBool (b : bool)
| VNum (n : Z)
| VNaN
| VStr (s : string)
| VFun (name : string) (length : nat) (source : string)
| VGlobalThis
| VArr (items : list value)
| VObj (fields : list (string * value))
| VErr (name message : string)
| VHost (chain : list interface) (id : nat).

(** [typeof v] *)
Definition typeof (v : value) : string :=
  match v with
  | VUndefined => "undefined"
  | VNull => "object"
  | VBool _ => "boolean"
  | VNum _ | VNaN => "number"
  | VStr _ => "string"
  | VFun _ _ _ => "function"
  | VGlobalThis | VArr _ | VObj _ | VErr _ _ | VHost _ _ => "object"
  end.

(** [!!v] *)
Definition ToBoolean (v : value) : bool :=
  match v with
  | VUndefined | VNull | VNaN => false
  | VBool b => b
  | VNum n => negb (n =? 0)%Z
  | VStr s => negb (s =? "")
  | _ => true
  end.

(** The prototype chain of a value, nearest prototype first; primitives have
    none as far as [isPrototypeOf] is concerned (it does not box them). *)
Definition prototypes (v : value) : list interface :=
  match v with
  | VFun _ _ _ => [Function; Object]
  | VGlobalThis | VObj _ => [Object]
  | VArr _ => [Array; Object]
  | VErr _ _ => [Error; Object]
  | VHost chain _ => chain
  | _ => []
  end.

(** [I.prototype.isPrototypeOf(v)] *)
Definition isPrototypeOf (I : interface) (v : value) : bool :=
  existsb (interface_eqb I) (prototypes v).

(** [o[k]] on an object literal: the field named [k]. *)
Fixpoint field (k : string) (fs : list (string * value)) : value :=
  match fs with
  | [] => VUndefined
  | (k', v) :: fs' => if k' =? k then v else field k fs'
  end.

(** [v?.k]: [undefined] on [null] and [undefined], the property otherwise.
    Of the properties that the bridge reads ([type], [id], [this],
    [arguments], [value], [reason]) only object literals have any. *)
Definition get (v : value) (k : string) : value :=
  match v with
  | VObj fs => field k fs
  | _ => VUndefined
  end.

(** [v === s] for a string [s] *)
Definition is_string (v : value) (s : string) : bool :=
  match v with
  | VStr s' => s' =? s
  | _ => false
  end.

(** [v === globalThis] *)
Definition is_globalThis (v : value) : bool :=
  match v with
  | VGlobalThis => true
  | _ => false
  end.

(** *** Structured clone

    What [postMessage(message, transfer)] delivers, or [None] when it throws
    a [DataCloneError].  Primitives, arrays, object literals and errors are
    copied member by member; functions are not cloneable, and neither is
    [globalThis], which holds functions.  What becomes of a platform object
    is the platform's to say (a buffer is copied, shared or moved, a port is
    moved, a date, a map or a typed array is copied, a socket or a buffer that
    is already detached is refused): a [serializer] tells, for the object
    with a given prototype chain and identity, and given whether the object
    is in the transfer list, whether it crosses.  A transfer list that names
    the same object twice is refused, whatever the message. *)
Definition serializer := bool -> list interface -> nat -> bool.

Definition listed (transfer : list value) (id : nat) : bool :=
  existsb (fun t => match t with VHost _ i => Nat.eqb i id | _ => false end)
          transfer.

Fixpoint duplicated (transfer : list value) : bool :=
  match transfer with
  | [] => false
  | VHost _ id :: rest => listed rest id || duplicated rest
  | _ :: rest => duplicated rest
  end.

(** Every member cloned, or none. *)
Fixpoint every {A : Type} (l : list (option A)) : option (list A) :=
  match l with
  | [] => Some []
  | Some x :: l' => option_map (cons x) (every l')
  | None :: _ => None
  end.

(** The walk over the message. *)
Fixpoint serialize (crosses : serializer) (transfer : list value) (v : value)
  : option value :=
  match v with
  | VUndefined | VNull | VBool _ | VNum _ | VNaN | VStr _ | VErr _ _ =>
      Some v
  | VFun _ _ _ | VGlobalThis => None
  | VArr items =>
      option_map VArr (every (List.map (serialize crosses transfer) items))
  | VObj fs =>
      option_map VObj
        (every (List.map
                  (fun kv : string * value =>
                     option_map (pair (fst kv))
                                (serialize crosses transfer (snd kv)))
                  fs))
  | VHost chain id =>
      if crosses (listed transfer id) chain id then Some v else None
  end.

Definition structuredClone (crosses : serializer) (transfer : list value)
    (v : value) : option value :=
  if duplicated transfer then None else serialize crosses transfer v.

(** A completion of a call: it returns, it throws, or it never comes back. *)
Inductive completion (A : Type) :=
| Return (a : A)
| Throw (e : value)
| Blocked.
Arguments Return {A} a.
Arguments Throw {A} e.
Arguments Blocked {A}.

(** The settlement of [await f.call(that, ...args)]. *)
Inductive outcome :=
| Fulfils (v : value)
| Rejects (reason : value)
| Pends.

(** A function as the worker runs it, and the evaluation, inside the worker,
    of the module text [(workerMain)(source)] as far as the function that
    [source] stands for: [None] when the text does not evaluate, as when
    [source] is not an expression (the text of a native or bound function,
    of a method written in shorthand). *)
Definition computation := value -> list value -> outcome.
Definition engine := string -> option computation.

End JS.

(** ** The transfer classifier *)
Module Transfer.
Import JS.

(** What [typeof ImageBitmap !== "undefined"] and
    [typeof OffscreenCanvas !== "undefined"] evaluate to on the platform, and
    what its structured clone makes of platform objects. *)
Record platform := {
  hasImageBitmap : bool;
  hasOffscreenCanvas : bool;
  serializes : serializer
}.

(** The interfaces whose instances cross only when they are moved. *)
Definition transfer_only (I : interface) : bool :=
  match I with
  | MessagePort | ReadableStream | WritableStream | TransformStream
  | OffscreenCanvas => true
  | _ => false
  end.

(** Node.js defines neither interface.  Its serializer moves an object that
    is in the transfer list; one that is not it copies (a buffer, a date, a
    map, a typed array) or shares (a shared buffer), unless the object is of
    an interface whose instances can only be moved.  The objects that it
    refuses for a reason of their own (a buffer that is already detached, a
    promise, a weak map) are not told apart here. *)
Definition node : platform :=
  {| hasImageBitmap := false; hasOffscreenCanvas := false;
     serializes := fun listed chain _ =>
                     listed || negb (existsb transfer_only chain) |}.

(** [src/isTransferable.ts]; [workerMain] declares the same function again,
    inside its own body, for the worker side.  [ArrayBuffer], [MessagePort]
    and the three stream interfaces are globals of the platform; the other
    two are tested with [typeof] before use. *)
Definition isTransferable (pf : platform) (o : value) : bool :=
  ToBoolean o &&
  (typeof o =? "object") &&
  (isPrototypeOf ArrayBuffer o ||
   isPrototypeOf MessagePort o ||
   isPrototypeOf ReadableStream o ||
   isPrototypeOf WritableStream o ||
   isPrototypeOf TransformStream o ||
   (hasImageBitmap pf && isPrototypeOf ImageBitmap o) ||
   (hasOffscreenCanvas pf && isPrototypeOf OffscreenCanvas o)).





End Transfer.

(** ** One session: worker, message channel, signal word *)
Module Bridge.
Import JS Transfer.

(** What the two threads do to the signal word and to the queues, in the
    order in which it happens. *)
Inductive event :=
| CallerOpen (m : value)             (* [worker.postMessage(open, ...)] *)
| CallerStore (n : Z)                (* [signal[0] = n] in [run] *)
| CallerPost (m : value)             (* [port.postMessage(call, ...)] *)
| CallerWait                         (* [Atomics.wait(signal, 0, 1)] *)
| CallerReceive (m : option value)   (* [receiveMessageOnPort(port)] *)
| WorkerPost (m : value)             (* [globalThis.postMessage(settle, ...)] *)
| WorkerStore (n : Z)                (* [signal[0] = n] in the dispatcher *)
| WorkerNotify.                      (* [Atomics.notify(signal, 0)] *)

(** The state that one call of [yellowlet] sets up and that its [run]
    closes over.  There are four queues: each direction of the
    [MessageChannel], and each direction of the worker's own message
    passing ([worker.postMessage] towards the worker's global scope,
    [globalThis.postMessage] in the worker towards the [Worker] object). *)
Record session := {
  name : string;                (* the worker's [name] option *)
  fn : computation;             (* [f], as the worker evaluates its source *)
  alive : bool;                 (* the worker's thread is there to run *)
  listening : bool;             (* the worker handled "open" and started its port *)
  signal : Z;                   (* [signal[0]], an [Int32] *)
  worker_inbox : list value;    (* sent with [worker.postMessage], not yet handled *)
  call_inbox : list value;      (* sent on [port], queued at [portForWorker] *)
  port_inbox : list value;      (* queued at [port], the caller's end *)
  parent_inbox : list value;    (* sent with [globalThis.postMessage] by the worker *)
  log : list event
}.

Definition set_alive (b : bool) (s : session) : session :=
  {| name := name s; fn := fn s; alive := b; listening := listening s;
     signal := signal s; worker_inbox := worker_inbox s;
     call_inbox := call_inbox s; port_inbox := port_inbox s;
     parent_inbox := parent_inbox s; log := log s |}.

Definition set_listening (b : bool) (s : session) : session :=
  {| name := name s; fn := fn s; alive := alive s; listening := b;
     signal := signal s; worker_inbox := worker_inbox s;
     call_inbox := call_inbox s; port_inbox := port_inbox s;
     parent_inbox := parent_inbox s; log := log s |}.

Definition set_signal (n : Z) (s : session) : session :=
  {| name := name s; fn := fn s; alive := alive s; listening := listening s;
     signal := n; worker_inbox := worker_inbox s;
     call_inbox := call_inbox s; port_inbox := port_inbox s;
     parent_inbox := parent_inbox s; log := log s |}.

Definition set_worker_inbox (q : list value) (s : session) : session :=
  {| name := name s; fn := fn s; alive := alive s; listening := listening s;
     signal := signal s; worker_inbox := q;
     call_inbox := call_inbox s; port_inbox := port_inbox s;
     parent_inbox := parent_inbox s; log := log s |}.

Definition set_call_inbox (q : list value) (s : session) : session :=
  {| name := name s; fn := fn s; alive := alive s; listening := listening s;
     signal := signal s; worker_inbox := worker_inbox s;
     call_inbox := q; port_inbox := port_inbox s;
     parent_inbox := parent_inbox s; log := log s |}.

Definition set_port_inbox (q : list value) (s : session) : session :=
  {| name := name s; fn := fn s; alive := alive s; listening := listening s;
     signal := signal s; worker_inbox := worker_inbox s;
     call_inbox := call_inbox s; port_inbox := q;
     parent_inbox := parent_inbox s; log := log s |}.

Definition set_parent_inbox (q : list value) (s : session) : session :=
  {| name := name s; fn := fn s; alive := alive s; listening := listening s;
     signal := signal s; worker_inbox := worker_inbox s;
     call_inbox := call_inbox s; port_inbox := port_inbox s;
     parent_inbox := q; log := log s |}.

(** An element of the [Int32Array]: what is stored wraps to 32 bits, two's
    complement. *)
Definition Int32 (n : Z) : Z :=
  ((n + 2147483648) mod 4294967296 - 2147483648)%Z.

(** [signal[0] = n] *)
Definition store (n : Z) (s : session) : session := set_signal (Int32 n) s.

Definition record (e : event) (s : session) : session :=
  {| name := name s; fn := fn s; alive := alive s; listening := listening s;
     signal := signal s; worker_inbox := worker_inbox s;
     call_inbox := call_inbox s; port_inbox := port_inbox s;
     parent_inbox := parent_inbox s; log := log s ++ [e] |}.

(** *** The envelopes *)
Definition OpenMessageData (port signalSharedBuffer : value) : value :=
  VObj [("type", VStr "open"); ("port", port);
        ("signalSharedBuffer", signalSharedBuffer)].

Definition CallMessageData (id : string) (that : value) (args : list value)
  : value :=
  VObj [("type", VStr "call"); ("id", VStr id); ("this", that);
        ("arguments", VArr args)].

Definition FulfilledMessageData (id v : value) : value :=
  VObj [("type", VStr "fulfilled"); ("id", id); ("value", v)].

Definition RejectedMessageData (id reason : value) : value :=
  VObj [("type", VStr "rejected"); ("id", id); ("reason", reason)].

(** *** The worker side: [workerMain] *)

(** [globalThis.postMessage(m, transfer)] in the worker: the message goes to
    the [Worker] object of the caller's thread. *)
Definition global_postMessage (pf : platform) (m : value)
    (transfer : list value) (s : session) : option session :=
  match structuredClone (serializes pf) transfer m with
  | Some m' =>
      Some (record (WorkerPost m')
              (set_parent_inbox (parent_inbox s ++ [m']) s))
  | None => None
  end.

(** [signal[0] = 2; Atomics.notify(signal, 0)] *)
Definition resolve (s : session) : session :=
  record WorkerNotify (record (WorkerStore 2) (store 2 s)).

(** The listener on [globalThis]: an "open" message makes the worker listen
    on the port it carries. *)
Definition on_message (data : value) (s : session) : session :=
  if is_string (get data "type") "open" then set_listening true s else s.

(** The characters of a string, which is held in UTF-8: a byte from 0x80 to
    0xBF goes with the character before it. *)
Fixpoint characters (s : string) : list string :=
  match s with
  | EmptyString => []
  | String c rest =>
      let continues :=
        match rest with
        | String c' _ =>
            Nat.leb 128 (Ascii.nat_of_ascii c') &&
            Nat.ltb (Ascii.nat_of_ascii c') 192
        | EmptyString => false
        end in
      match characters rest with
      | g :: l => if continues then String c g :: l
                  else String c EmptyString :: g :: l
      | [] => [String c EmptyString]
      end
  end.

(** [...args]: the items of an array, which is what a call envelope holds,
    or the characters of a string; no other value is taken to be
    iterable. *)
Definition spread (args : value) : option (list value) :=
  match args with
  | VArr items => Some items
  | VStr s => Some (List.map VStr (characters s))
  | _ => None
  end.

(** [await f.call(that, ...args)]; spreading what is not iterable throws
    inside the [try]. *)
Definition settle (f : computation) (that args : value) : outcome :=
  match spread args with
  | Some items => f that items
  | None => Rejects (VErr "TypeError" "args is not iterable")
  end.

(** The listener on the port.  When [data] is [null] or [undefined], so that
    nothing can be read off it, and when the settle envelope does not clone,
    the listener's promise rejects: nothing is posted and the signal word is
    left alone. *)
Definition on_call (pf : platform) (data : value) (s : session) : session :=
  match data with
  | VUndefined | VNull => s
  | _ =>
      let id := get data "id" in
      let that := get data "this" in
      let args := get data "arguments" in
      match settle (fn s) that args with
      | Rejects reason =>
          match global_postMessage pf (RejectedMessageData id reason)
                  (List.filter (isTransferable pf) [reason]) s with
          | Some s' => resolve s'
          | None => s
          end
      | Fulfils v =>
          match global_postMessage pf (FulfilledMessageData id v)
                  (List.filter (isTransferable pf) [v]) s with
          | Some s' => resolve s'
          | None => s
          end
      | Pends => s
      end
  end.

(** The worker thread runs: it handles what was sent to its global scope
    and then, once it listens, what is queued at its port. *)
Definition worker_turn (pf : platform) (s : session) : session :=
  if alive s then
    let s1 := fold_left (fun s data => on_message data s) (worker_inbox s)
                        (set_worker_inbox [] s) in
    if listening s1 then
      fold_left (fun s data => on_call pf data s) (call_inbox s1)
                (set_call_inbox [] s1)
    else s1
  else s.

(** *** The caller side: [run] *)

(** [worker.postMessage(m, [portForWorker])] for the open envelope [m]: a
    string, the port just made, which is in the transfer list, and the shared
    buffer just made.  It is queued for the worker's global scope as it
    is. *)
Definition worker_postMessage (m : value) (s : session) : session :=
  record (CallerOpen m) (set_worker_inbox (worker_inbox s ++ [m]) s).

(** [port.postMessage(m, transfer)] *)
Definition port_postMessage (pf : platform) (m : value)
    (transfer : list value) (s : session) : option session :=
  match structuredClone (serializes pf) transfer m with
  | Some m' =>
      Some (record (CallerPost m') (set_call_inbox (call_inbox s ++ [m']) s))
  | None => None
  end.

(** [Atomics.wait(signal, 0, 1)]: returns at once when the word is not 1;
    otherwise the caller sleeps while the worker runs, and wakes up only if
    the worker changed the word. *)
Definition Atomics_wait (pf : platform) (s : session) : bool * session :=
  let s := record CallerWait s in
  if (signal s =? 1)%Z then
    let s' := worker_turn pf s in
    (negb (signal s' =? 1)%Z, s')
  else (true, s).

(** [receiveMessageOnPort(port)]: the container of the oldest queued
    message, or [undefined]. *)
Definition receiveMessageOnPort (s : session) : option value * session :=
  match port_inbox s with
  | [] => (None, record (CallerReceive None) s)
  | m :: q => (Some m, record (CallerReceive (Some m)) (set_port_inbox q s))
  end.

Definition DataCloneError : value :=
  VErr "DataCloneError" "The object could not be cloned.".

(** Reading [.message] of an [undefined] container. *)
Definition no_container : value :=
  VErr "TypeError" "Cannot read properties of undefined (reading 'message')".

(** The end of [run]: what it makes of the container it received,
    [const data = messageContainer.message] onwards. *)
Definition answer (id : string) (messageContainer : option value)
  : completion value :=
  match messageContainer with
  | None => Throw no_container
  | Some data =>
      if is_string (get data "id") id then
        if is_string (get data "type") "fulfilled" then
          Return (get data "value")
        else if is_string (get data "type") "rejected" then
          Throw (get data "reason")
        else Throw (VObj [])
      else Throw (VObj [])
  end.

(** The names that an identifier in the body of [run] can resolve to: what
    [run] declares at the level of its body, what [yellowlet] declares around
    it, what the module imports and declares, and the globals that the
    module reads, with the [Worker] class that it asks the program to
    provide.  The function [isTransferable] is declared inside the body of
    [workerMain], which is not around [run], and the module does not import
    [src/isTransferable.ts]; the global object of the platform has no
    property of that name. *)
Definition run_scope : list string :=
  ["args"; "id"; "that"; "messageContainer"; "data"].

Definition yellowlet_scope : list string :=
  ["f"; "worker"; "port"; "portForWorker"; "signalSharedBuffer"; "signal";
   "run"].

Definition module_scope : list string :=
  ["receiveMessageOnPort"; "workerMain"; "finalizationRegistry"; "yellowlet"].

Definition globals : list string :=
  ["globalThis"; "undefined"; "Worker"; "btoa"; "MessageChannel";
   "SharedArrayBuffer"; "Int32Array"; "Symbol"; "Math"; "Atomics"; "Object";
   "TypeError"; "FinalizationRegistry"].

Definition declared (name : string) : bool :=
  existsb (String.eqb name)
    (run_scope ++ yellowlet_scope ++ module_scope ++ globals)%list.

(** Reading an identifier that nothing declares. *)
Definition ReferenceError (name : string) : value :=
  VErr "ReferenceError" (name ++ " is not defined").

(** [const that = ...] and the object literal that is the first argument of
    [port.postMessage]. *)
Definition call_envelope (id : string) (this : value) (args : list value)
  : value :=
  let that := if is_globalThis this then VUndefined else this in
  CallMessageData id that args.

(** [run], with the [id] that [Math.random().toString(36).slice(2, 6)]
    produced for this call.  The arguments of [port.postMessage] are
    evaluated from left to right before it is called: the envelope first,
    then [args.filter(isTransferable)], whose own argument is an identifier
    that has to be read; when that throws, [postMessage] is not called and
    [run] is left with the signal word as it stored it. *)
Definition run (pf : platform) (id : string) (this : value)
    (args : list value) (s : session) : completion value * session :=
  let s := record (CallerStore 1) (store 1 s) in
  let message := call_envelope id this args in
  if declared "isTransferable" then
    match port_postMessage pf message
            (List.filter (isTransferable pf) args) s with
    | None => (Throw DataCloneError, s)
    | Some s =>
        match Atomics_wait pf s with
        | (false, s) => (Blocked, s)
        | (true, s) =>
            let s := record (CallerStore 0) (store 0 s) in
            let (messageContainer, s) := receiveMessageOnPort s in
            (answer id messageContainer, s)
        end
    end
  else (Throw (ReferenceError "isTransferable"), s).

(** What the dispatcher adds to the log for the settle envelopes [ms]. *)
Definition settles (ms : list value) : list event :=
  flat_map (fun m => [WorkerPost m; WorkerStore 2; WorkerNotify]) ms.

(** [s'] is [s] after the dispatcher posted the settle envelopes [ms]: it
    adds its three steps per envelope to the log, in that order, stores
    nothing but 2 in the signal word, and leaves the caller's port alone. *)
Record dispatched (ms : list value) (s s' : session) : Prop := {
  dispatched_log : log s' = (log s ++ settles ms)%list;
  dispatched_signal :
    signal s' = match ms with [] => signal s | _ => 2%Z end;
  dispatched_port : port_inbox s' = port_inbox s;
  dispatched_parent : parent_inbox s' = (parent_inbox s ++ ms)%list
}.


End Bridge.

(** ** The caller's realm: the factory and its wrappers *)
Module Host.
Import JS Transfer Bridge.

(** What a callback registered with the realm does when it runs; the only
    callback in the source is the finalization registry's
    [worker.terminate()]. *)
Inductive task := Terminate (worker : nat).

(** The function that [yellowlet] returns: [run] with its [name] and
    [length] redefined, closing over the worker it was created with. *)
Record wrapper := {
  wname : string;
  wlength : nat;
  wworker : nat
}.

Record host := {
  workers : list session;            (* every [Worker] created so far *)
  registry : list (wrapper * nat);   (* [finalizationRegistry]: target, held worker *)
  timers : list (nat * task);        (* pending timeouts: due time, callback *)
  now : nat
}.

Definition boot : host :=
  {| workers := []; registry := []; timers := []; now := 0 |}.

Definition set_workers (ws : list session) (h : host) : host :=
  {| workers := ws; registry := registry h; timers := timers h;
     now := now h |}.

Definition fun_name (f : value) : string :=
  match f with VFun n _ _ => n | _ => "" end.

Definition fun_length (f : value) : nat :=
  match f with VFun _ n _ => n | _ => 0 end.

Definition fun_source (f : value) : string :=
  match f with VFun _ _ src => src | _ => "" end.

(** [btoa(text)] throws an [InvalidCharacterError] when [text] has a
    character above U+00FF.  A string is held here in UTF-8, where such a
    character is one whose first byte is 0xC4 or more.  The text that
    [yellowlet] encodes is that of [workerMain], which is ASCII, two pairs of
    brackets and the source text of [f]. *)
Definition Latin1 (text : string) : bool :=
  forallb (fun c => Nat.ltb (Ascii.nat_of_ascii c) 196)
          (list_ascii_of_string text).

Definition InvalidCharacterError : value :=
  VErr "InvalidCharacterError" "Invalid character".

(** [new Worker("data:text/javascript;base64," + btoa(`(${workerMain})(${f})`),
    { type: "module", name: "greenlet:" + f.name })]: a thread that runs
    [workerMain] on the function that the source text of [f] evaluates to.
    When the module text does not evaluate, [workerMain] is never called and
    the thread ends with the error: nothing listens in it.
    [new SharedArrayBuffer(4)] is zero-filled, so the signal word starts at
    0. *)
Definition new_Worker (js : engine) (f : value) : session :=
  {| name := "greenlet:" ++ fun_name f;
     fn := match js (fun_source f) with
           | Some g => g
           | None => fun _ _ => Pends
           end;
     alive := match js (fun_source f) with
              | Some _ => true
              | None => false
              end;
     listening := false; signal := 0;
     worker_inbox := []; call_inbox := []; port_inbox := [];
     parent_inbox := []; log := [] |}.

(** [yellowlet(f)].  The ports and the buffer of the [n]-th worker are the
    platform objects [3n] ([port], which stays with the caller), [3n+1] and
    [3n+2].  The [unref()] calls and [port.start()] change nothing that is
    modelled here. *)
Definition yellowlet (js : engine) (f : value) (h : host)
  : completion wrapper * host :=
  if negb (typeof f =? "function") then
    (Throw (VErr "TypeError" "f is not a function"), h)
  else if negb (Latin1 (fun_source f)) then
    (Throw InvalidCharacterError, h)
  else
    let n := length (workers h) in
    let worker := new_Worker js f in
    let portForWorker := VHost [MessagePort; Object] (3 * n + 1) in
    let signalSharedBuffer := VHost [SharedArrayBuffer; Object] (3 * n + 2) in
    let worker :=
      worker_postMessage (OpenMessageData portForWorker signalSharedBuffer)
                         worker in
    let run := {| wname := fun_name f; wlength := fun_length f;
                  wworker := n |} in
    (Return run,
     {| workers := workers h ++ [worker];
        registry := registry h ++ [(run, n)];
        timers := timers h; now := now h |}).

(** Calling a wrapper: [run] on the session it closes over.  [None] when
    [w] was not made on this host. *)
Definition call (pf : platform) (w : wrapper) (id : string) (this : value)
    (args : list value) (h : host) : option (completion value * host) :=
  match workers h !! wworker w with
  | Some s =>
      let (r, s') := run pf id this args s in
      Some (r, set_workers (<[wworker w := s']> (workers h)) h)
  | None => None
  end.

(** [worker.terminate()] *)
Definition terminate (n : nat) (h : host) : host :=
  match workers h !! n with
  | Some s => set_workers (<[n := set_alive false s]> (workers h)) h
  | None => h
  end.

Definition run_task (t : task) (h : host) : host :=
  match t with Terminate n => terminate n h end.

(** The collector found [w] unreachable: the registry's callback runs on
    the workers held for it. *)
Definition collect (w : wrapper) (h : host) : host :=
  let mine (e : wrapper * nat) := Nat.eqb (wworker (fst e)) (wworker w) in
  fold_left (fun h e => run_task (Terminate (snd e)) h)
    (List.filter mine (registry h))
    {| workers := workers h;
       registry := List.filter (fun e => negb (mine e)) (registry h);
       timers := timers h; now := now h |}.

(** [n] units of time pass on the caller's thread while nothing is called:
    the timeouts that fall due run, in order. *)
Definition elapse (n : nat) (h : host) : host :=
  let t := now h + n in
  let due (e : nat * task) := Nat.leb (fst e) t in
  fold_left (fun h e => run_task (snd e) h)
    (List.filter due (timers h))
    {| workers := workers h; registry := registry h;
       timers := List.filter (fun e => negb (due e)) (timers h);
       now := t |}.

(** The thread of the [n]-th worker runs, at any moment of the caller's: it
    handles what is queued for it. *)
Definition work (pf : platform) (n : nat) (h : host) : host :=
  match workers h !! n with
  | Some s => set_workers (<[n := worker_turn pf s]> (workers h)) h
  | None => h
  end.

(** The two functions of the specification's scenarios, and an evaluator
    that knows them and no other text. *)
Definition double : value := VFun "" 1 "x => x * 2".
Definition boom : value := VFun "" 0 "() => { throw new Error('boom') }".

Definition scenarios : engine := fun source =>
  if source =? "x => x * 2" then
    Some (fun that args =>
            match args with
            | VNum x :: _ => Fulfils (VNum (x * 2))
            | _ => Fulfils VNaN
            end)
  else if source =? "() => { throw new Error('boom') }" then
    Some (fun that args => Rejects (VErr "Error" "boom"))
  else None.

(** The hosts that a program can get to: it wraps functions, calls the
    wrappers it got, lets time pass and drops wrappers, while the workers
    run. *)
Inductive reachable : host -> Prop :=
| reach_boot : reachable boot
| reach_yellowlet js f h :
    reachable h -> reachable (snd (yellowlet js f h))
| reach_call pf w id this args h r h' :
    reachable h -> call pf w id this args h = Some (r, h') -> reachable h'
| reach_elapse n h : reachable h -> reachable (elapse n h)
| reach_collect w h : reachable h -> reachable (collect w h)
| reach_work pf n h : reachable h -> reachable (work pf n h).

(** The session of the first wrapper made on a fresh host. *)
Definition fresh (js : engine) (f : value) : session :=
  match workers (snd (yellowlet js f boot)) with
  | s :: _ => s
  | [] => new_Worker js f
  end.

End Host.

(** ** What the lifecycle rests on *)
Module Lifecycle.
Import JS Transfer Bridge Host.


(** Every registration of the finalization registry holds, for a wrapper,
    the worker that the wrapper closes over, and that worker exists. *)
Definition owned (h : host) : Prop :=
  forall w n, In (w, n) (registry h) ->
    wworker w = n /\ n < length (workers h).

(** No worker is held for two wrappers. *)
Definition unshared (h : host) : Prop :=
  List.NoDup (List.map snd (registry h)).






(** The settle envelope that the dispatcher makes for the outcome of a call,
    with the value or reason that it carries; none while the promise is
    pending. *)
Definition envelope_for (id : value) (o : outcome) : option (value * value) :=
  match o with
  | Fulfils v => Some (FulfilledMessageData id v, v)
  | Rejects reason => Some (RejectedMessageData id reason, reason)
  | Pends => None
  end.

(** One more function to wrap, which returns a function, and an evaluator
    that knows it and no other text. *)
Definition thunk : value := VFun "" 0 "() => () => 1".

Definition more : engine := fun source =>
  if source =? "() => () => 1" then
    Some (fun that args => Fulfils (VFun "" 0 "() => 1"))
  else None.

(** An example: [x => x * 2] is wrapped on a fresh host, the wrapper is
    called with 21, and then the worker runs. *)
Definition wrapped : host := snd (yellowlet scenarios double boot).

Definition handle : wrapper :=
  {| wname := EmptyString; wlength := 1; wworker := 0 |}.

Definition after_call : host :=
  match call node handle "ab12" VUndefined [VNum 21] wrapped with
  | Some (_, h) => h
  | None => boot
  end.


(** A function with the character U+2192 in its source text (in UTF-8: 0xE2
    0x86 0x92). *)
Definition arrow : value :=
  VFun "" 0
    ("() => '" ++
     String (Ascii.ascii_of_nat 226)
       (String (Ascii.ascii_of_nat 134)
          (String (Ascii.ascii_of_nat 146) "'"))).

End Lifecycle.

(** ** The two-file variant: [yellowlet-worker.ts] and its wrapper

    The second [yellowlet] of [src/yellowlet.ts] and the worker module that
    follows it.  A session is as in [Bridge]; its [fn] is not used, the
    function being what the worker module evaluates for itself.  The worker
    module awaits the open handshake with [pEvent] of the package p-event,
    which resolves with the first event that its filter accepts. *)
Module Sibling.
Import JS Transfer Bridge.

(** [function_.call()]: the call throws, or it gives a value or a promise,
    and [Promise.resolve] of that settles. *)
Inductive behaviour :=
| Throws (e : value)
| Gives (o : outcome).

Definition function := value -> list value -> behaviour.

(** What [(0, eval)(text)] comes to: it throws, it gives something that
    cannot be called, or it gives a function. *)
Inductive evaluated :=
| Raises
| NotCallable
| Callable (f : function).

Definition evaluator := string -> evaluated.

(** [(0, eval)(x)]: of a value that is not a string, the value itself; no
    function can have crossed into the worker. *)
Definition eval (js : evaluator) (x : value) : evaluated :=
  match x with
  | VStr text => js text
  | _ => NotCallable
  end.

(** *** The envelopes *)
Definition OpenMessage (functionSource : string)
    (port signalSharedBuffer : value) : value :=
  VObj [("type", VStr "yellowlet:open");
        ("functionSource", VStr functionSource); ("port", port);
        ("signalSharedBuffer", signalSharedBuffer)].

Definition CallMessage (that : value) (args : list value) : value :=
  VObj [("type", VStr "yellowlet:call"); ("this", that);
        ("arguments", VArr args)].

Definition SettleFulfilled (channel v : value) : value :=
  VObj [("type", VStr "settle"); ("channel", channel);
        ("status", VStr "fulfilled"); ("value", v)].

Definition SettleRejected (channel reason : value) : value :=
  VObj [("type", VStr "settle"); ("channel", channel);
        ("status", VStr "rejected"); ("reason", reason)].

(** *** The worker module *)

(** The event that the worker's global scope dispatches for a message: the
    message is its [data].  Of its other properties ([origin],
    [lastEventId], [source], [ports]) the module reads none. *)
Definition MessageEvent (data : value) : value :=
  VObj [("type", VStr "message"); ("data", data)].

(** The filter given to [pEvent]: [({ data }) => data?.type ===
    "yellowlet:open"]. *)
Definition accepts (event : value) : bool :=
  is_string (get (get event "data") "type") "yellowlet:open".

(** [await pEvent(globalThis, "message", filter)]: the first event that the
    filter accepts, once there is one. *)
Definition openEvent (s : session) : option value :=
  List.find accepts (List.map MessageEvent (worker_inbox s)).

(** [port.postMessage(m, transfer)] in the worker: the message goes to the
    caller's end of the channel. *)
Definition reply (pf : platform) (m : value) (transfer : list value)
    (s : session) : option session :=
  match structuredClone (serializes pf) transfer m with
  | Some m' =>
      Some (record (WorkerPost m') (set_port_inbox (port_inbox s ++ [m']) s))
  | None => None
  end.

(** The callback of [.catch]: when its own [postMessage] throws, the promise
    of the chain rejects and nothing else happens. *)
Definition on_rejected (pf : platform) (channel reason : value) (s : session)
  : session :=
  match reply pf (SettleRejected channel reason)
          (List.filter (isTransferable pf) [reason]) s with
  | Some s' => resolve s'
  | None => s
  end.

(** [handleCall].  It reads [channel], [that] and [args] off the message and
    uses the first only: the function is called with no receiver and no
    argument.  A throw of that call, as when [function_] cannot be called,
    leaves [handleCall] before any promise exists; a throw of [postMessage]
    inside [.then] is what [.catch] receives. *)
Definition handleCall (pf : platform) (function_ : evaluated) (data : value)
    (s : session) : session :=
  let channel := get data "channel" in
  match function_ with
  | Raises | NotCallable => s
  | Callable f =>
      match f VUndefined [] with
      | Throws _ => s
      | Gives (Fulfils v) =>
          match reply pf (SettleFulfilled channel v)
                  (List.filter (isTransferable pf) [v]) s with
          | Some s' => resolve s'
          | None => on_rejected pf channel DataCloneError s
          end
      | Gives (Rejects reason) => on_rejected pf channel reason s
      | Gives Pends => s
      end
  end.

(** The listener on the port. *)
Definition on_port_message (pf : platform) (function_ : evaluated)
    (data : value) (s : session) : session :=
  if is_string (get data "type") "yellowlet:call"
  then handleCall pf function_ data s
  else s.

(** The module from the end of its [await] to [port.start()].  Its three
    constants are read off the event that [pEvent] resolved with, not off
    the event's [data].  When [eval] throws, or when [port] is not a port, so
    that [port.addEventListener] throws, the module's evaluation ends there
    and the thread with it. *)
Definition start (js : evaluator) (event : value) (s : session) : session :=
  let functionSource := get event "functionSource" in
  let port := get event "port" in
  match eval js functionSource with
  | Raises => set_alive false s
  | _ =>
      match port with
      | VHost chain _ =>
          if existsb (interface_eqb MessagePort) chain
          then set_listening true s
          else set_alive false s
      | _ => set_alive false s
      end
  end.

(** The worker thread runs: once the open event is there, the module goes on
    from its [await], and when it listens, it handles what is queued at its
    port. *)
Definition worker_turn (pf : platform) (js : evaluator) (s : session)
  : session :=
  if alive s then
    match openEvent s with
    | None => s
    | Some event =>
        let s := if listening s then s else start js event s in
        if alive s && listening s then
          fold_left
            (fun s data =>
               on_port_message pf (eval js (get event "functionSource"))
                               data s)
            (call_inbox s) (set_call_inbox [] s)
        else s
    end
  else s.

(** *** The factory and its wrapper *)

(** What the second [yellowlet] sets up for a function whose text is
    [source], from [new YellowletWorker()] to [worker.unref()]. *)
Definition setup (source : string) : session :=
  worker_postMessage
    (OpenMessage source (VHost [MessagePort; Object] 1)
                 (VHost [SharedArrayBuffer; Object] 2))
    {| name := EmptyString; fn := fun _ _ => Pends; alive := true;
       listening := false; signal := 0; worker_inbox := [];
       call_inbox := []; port_inbox := []; parent_inbox := []; log := [] |}.

(** [new DOMException()]: its name is "Error" and its message is empty. *)
Definition DOMException : value := VErr "Error" EmptyString.

(** The end of the wrapper, from [if (!messageContainer)] onwards. *)
Definition outcome_of (messageContainer : option value) : completion value :=
  match messageContainer with
  | None => Throw DOMException
  | Some data =>
      if is_string (get data "status") "fulfilled"
      then Return (get data "value")
      else Throw (get data "reason")
  end.

(** The wrapper that the second [yellowlet] returns, on the session it closes
    over; [js] is the [eval] of that session's worker.  The call envelope is
    posted with no transfer list. *)
Definition wrapper (pf : platform) (js : evaluator) (this : value)
    (args : list value) (s : session) : completion value * session :=
  let that := if is_globalThis this then VUndefined else this in
  let s := record (CallerStore 1) (store 1 s) in
  match port_postMessage pf (CallMessage that args) [] s with
  | None => (Throw DataCloneError, s)
  | Some s =>
      let s := record CallerWait s in
      let s := if (signal s =? 1)%Z then worker_turn pf js s else s in
      if (signal s =? 1)%Z then (Blocked, s)
      else
        let s := record (CallerStore 0) (store 0 s) in
        let (messageContainer, s) := receiveMessageOnPort s in
        (outcome_of messageContainer, s)
  end.

(** An [eval] that knows [x => x * 2]. *)
Definition twice : evaluator := fun text =>
  if text =? "x => x * 2" then
    Callable (fun _ args =>
                match args with
                | VNum x :: _ => Gives (Fulfils (VNum (x * 2)))
                | _ => Gives (Fulfils VNaN)
                end)
  else Raises.

End Sibling.

(** * Properties *)

Open Scope list_scope.

Section TransferFacts.
Import JS Transfer.




End TransferFacts.


(** ** Structured clone *)
Section CloneFacts.
Import JS.

(** Induction on values that reaches into arrays and object literals. *)
Section value_induction.
Variable P : value -> Prop.
Hypothesis Hundefined : P VUndefined.
Hypothesis Hnull : P VNull.
Hypothesis Hbool : forall b, P (VBool b).
Hypothesis Hnum : forall n, P (VNum n).
Hypothesis Hnan : P VNaN.
Hypothesis Hstr : forall s, P (VStr s).
Hypothesis Hfun : forall n l src, P (VFun n l src).
Hypothesis Hglobal : P VGlobalThis.
Hypothesis Harr : forall items, Forall P items -> P (VArr items).
Hypothesis Hobj : forall fs, Forall (fun kv => P (snd kv)) fs -> P (VObj fs).
Hypothesis Herr : forall n m, P (VErr n m).
Hypothesis Hhost : forall chain id, P (VHost chain id).

Fixpoint value_nested_ind (v : value) : P v :=
  match v with
  | VUndefined => Hundefined
  | VNull => Hnull
  | VBool b => Hbool b
  | VNum n => Hnum n
  | VNaN => Hnan
  | VStr s => Hstr s
  | VFun n l src => Hfun n l src
  | VGlobalThis => Hglobal
  | VArr items =>
      Harr items
        ((fix each (l : list value) : Forall P l :=
            match l with
            | [] => List.Forall_nil P
            | x :: l' => List.Forall_cons P x l' (value_nested_ind x) (each l')
            end) items)
  | VObj fs =>
      Hobj fs
        ((fix each (l : list (string * value))
            : Forall (fun kv => P (snd kv)) l :=
            match l with
            | [] => List.Forall_nil _
            | kv :: l' =>
                List.Forall_cons _ kv l' (value_nested_ind (snd kv)) (each l')
            end) fs)
  | VErr n m => Herr n m
  | VHost chain id => Hhost chain id
  end.
End value_induction.

Variable crosses : serializer.

(** Whatever the walk delivers is equal, member by member, to what was
    sent. *)
Lemma serialize_same (transfer : list value) (v v' : value) :
  serialize crosses transfer v = Some v' -> v' = v.
Proof.
  revert v'. induction v as
    [ | | b | n | | s | n l src | | items IH | fs IH | n m | chain id ]
    using value_nested_ind; intros v' H; simpl in H;
    try (injection H as <-; reflexivity); try discriminate.
  - destruct (every (List.map (serialize crosses transfer) items))
      as [l'|] eqn:El; [|discriminate].
    simpl in H. injection H as <-. f_equal.
    revert l' El. induction IH as [|x l Hx _ IHl]; intros l' El; simpl in El.
    + now injection El as <-.
    + destruct (serialize crosses transfer x) as [x'|] eqn:Ex; [|discriminate].
      destruct (every (List.map (serialize crosses transfer) l))
        as [l''|]; [|discriminate].
      simpl in El. injection El as <-.
      now rewrite (Hx _ eq_refl), (IHl _ eq_refl).
  - match type of H with
    | option_map _ (every ?l) = _ => destruct (every l) as [l'|] eqn:El
    end; [|discriminate].
    simpl in H. injection H as <-. f_equal.
    revert l' El. induction IH as [|[k x] l Hx _ IHl]; intros l' El;
      simpl in El.
    + now injection El as <-.
    + simpl in Hx.
      destruct (serialize crosses transfer x) as [x'|] eqn:Ex; [|discriminate].
      simpl in El.
      match type of El with
      | option_map _ (every ?l) = _ => destruct (every l) as [l''|]
      end; [|discriminate].
      simpl in El. injection El as <-.
      now rewrite (Hx _ eq_refl), (IHl _ eq_refl).
  - destruct (crosses (listed transfer id) chain id); [|discriminate].
    now injection H as <-.
Qed.

Lemma structuredClone_same (transfer : list value) (v v' : value) :
  structuredClone crosses transfer v = Some v' -> v' = v.
Proof.
  unfold structuredClone. destruct (duplicated transfer); [discriminate|].
  apply serialize_same.
Qed.


End CloneFacts.

(** ** The worker side *)
Section WorkerFacts.
Import JS Transfer Bridge Lifecycle.

Variable pf : platform.

Lemma dispatched_refl (s : session) : dispatched [] s s.
Proof. split; simpl; now rewrite ?app_nil_r. Qed.

Lemma dispatched_trans (ms ms' : list value) (s s' s'' : session) :
  dispatched ms s s' -> dispatched ms' s' s'' -> dispatched (ms ++ ms') s s''.
Proof.
  intros [Hl Hs Hp Hq] [Hl' Hs' Hp' Hq']. split.
  - rewrite Hl', Hl. unfold settles. now rewrite flat_map_app, app_assoc.
  - rewrite Hs', Hs. destruct ms, ms'; reflexivity.
  - now rewrite Hp', Hp.
  - now rewrite Hq', Hq, app_assoc.
Qed.

Lemma on_message_dispatched (data : value) (s : session) :
  dispatched [] s (on_message data s).
Proof.
  unfold on_message. destruct (is_string _ _); split; simpl;
    now rewrite ?app_nil_r.
Qed.

Lemma global_postMessage_resolve (m : value) (transfer : list value)
    (s s' : session) :
  global_postMessage pf m transfer s = Some s' ->
  dispatched [m] s (resolve s').
Proof.
  unfold global_postMessage. intros H.
  destruct (structuredClone (serializes pf) transfer m) as [m'|] eqn:E;
    [|discriminate].
  apply structuredClone_same in E. subst m'. injection H as <-.
  split; simpl; try reflexivity.
  now rewrite <- !app_assoc.
Qed.

(** One call envelope is answered by at most one settle envelope, and that
    envelope carries the call's [id]. *)
Lemma on_call_dispatched (data : value) (s : session) :
  exists ms, dispatched ms s (on_call pf data s) /\
    (ms = [] \/
     (exists v, ms = [FulfilledMessageData (get data "id") v]) \/
     (exists r, ms = [RejectedMessageData (get data "id") r])).
Proof.
  assert (Hnone : exists ms, dispatched ms s s /\
            (ms = [] \/
             (exists v, ms = [FulfilledMessageData (get data "id") v]) \/
             (exists r, ms = [RejectedMessageData (get data "id") r]))).
  { exists []. split; [apply dispatched_refl | now left]. }
  assert (Hsome : exists ms,
            dispatched ms s
              match settle (fn s) (get data "this") (get data "arguments") with
              | Rejects reason =>
                  match global_postMessage pf
                          (RejectedMessageData (get data "id") reason)
                          (List.filter (isTransferable pf) [reason]) s with
                  | Some s' => resolve s'
                  | None => s
                  end
              | Fulfils v =>
                  match global_postMessage pf
                          (FulfilledMessageData (get data "id") v)
                          (List.filter (isTransferable pf) [v]) s with
                  | Some s' => resolve s'
                  | None => s
                  end
              | Pends => s
              end /\
            (ms = [] \/
             (exists v, ms = [FulfilledMessageData (get data "id") v]) \/
             (exists r, ms = [RejectedMessageData (get data "id") r]))).
  { destruct (settle (fn s) (get data "this") (get data "arguments"))
      as [v|r|].
    - destruct (global_postMessage _ _ _ s) as [s'|] eqn:E.
      + eexists. split; [eapply global_postMessage_resolve, E|]. eauto.
      + exact Hnone.
    - destruct (global_postMessage _ _ _ s) as [s'|] eqn:E.
      + eexists. split; [eapply global_postMessage_resolve, E|]. eauto.
      + exact Hnone.
    - exact Hnone. }
  unfold on_call. destruct data; first [exact Hnone | exact Hsome].
Qed.

Lemma worker_turn_dispatched (s : session) :
  exists ms, dispatched ms s (worker_turn pf s).
Proof.
  unfold worker_turn. destruct (alive s); [|exists []; apply dispatched_refl].
  assert (Hopen : forall q s0, dispatched [] s0
            (fold_left (fun s data => on_message data s) q s0)).
  { induction q as [|d q IH]; intros s0; simpl; [apply dispatched_refl|].
    apply (dispatched_trans [] [] _ _ _ (on_message_dispatched d s0)), IH. }
  assert (Hcalls : forall q s0, exists ms, dispatched ms s0
            (fold_left (fun s data => on_call pf data s) q s0)).
  { induction q as [|d q IH]; intros s0; simpl.
    - exists []. apply dispatched_refl.
    - destruct (on_call_dispatched d s0) as [ms [Hd _]].
      destruct (IH (on_call pf d s0)) as [ms' Hd'].
      exists (ms ++ ms'). eapply dispatched_trans; eassumption. }
  set (s1 := fold_left _ (worker_inbox s) _).
  assert (H1 : dispatched [] s s1).
  { apply (dispatched_trans [] [] s (set_worker_inbox [] s) s1).
    - split; simpl; now rewrite ?app_nil_r.
    - apply Hopen. }
  destruct (listening s1); [|exists []; exact H1].
  destruct (Hcalls (call_inbox s1) (set_call_inbox [] s1)) as [ms Hd].
  exists ms. apply (dispatched_trans [] ms _ _ _ H1).
  apply (dispatched_trans [] ms s1 (set_call_inbox [] s1) _); [|exact Hd].
  split; simpl; now rewrite ?app_nil_r.
Qed.




Lemma settle_envelope_stuck (transfer : list value) (id : value)
    (o : outcome) (m payload : value) :
  envelope_for id o = Some (m, payload) ->
  structuredClone (serializes pf) transfer payload = None ->
  structuredClone (serializes pf) transfer m = None.
Proof.
  intros He. unfold structuredClone.
  destruct (duplicated transfer); [reflexivity|]. intros Hs.
  destruct o as [v|r|]; simpl in He; [| |discriminate];
    injection He as <- <-;
    [unfold FulfilledMessageData | unfold RejectedMessageData];
    cbn [serialize List.map every option_map fst snd]; rewrite Hs;
    destruct (serialize (serializes pf) transfer id); reflexivity.
Qed.

End WorkerFacts.

(** ** The caller side *)
Section CallerFacts.
Import JS Transfer Bridge.



End CallerFacts.

(** * The claims *)

(** C9: for every argument that is not a function, [yellowlet] throws a
    [TypeError] at once, and the host is left as it was: no worker, channel or
    signal word has been created. *)
Theorem yellowlet_rejects_non_function
    (js : JS.engine) (f : JS.value) (h : Host.host) :
  JS.typeof f <> "function" ->
  Host.yellowlet js f h =
    (JS.Throw (JS.VErr "TypeError" "f is not a function"), h).
Proof.
  intros Hf. unfold Host.yellowlet.
  destruct (JS.typeof f =? "function") eqn:E; [|reflexivity].
  apply String.eqb_eq in E. contradiction.
Qed.

Lemma yellowlet_rejects_non_function_witness :
  JS.typeof (JS.VNum 42) <> "function" /\
  Host.yellowlet Host.scenarios (JS.VNum 42) Host.boot =
    (JS.Throw (JS.VErr "TypeError" "f is not a function"), Host.boot).
Proof.
  split; [discriminate|].
  apply (yellowlet_rejects_non_function Host.scenarios (JS.VNum 42) Host.boot).
  discriminate.
Defined.



(** The end of [run] does hand over what a matching envelope carries. *)
Lemma answer_fulfilled (id : string) (v : JS.value) :
  Bridge.answer id (Some (Bridge.FulfilledMessageData (JS.VStr id) v))
    = JS.Return v.
Proof. unfold Bridge.answer. simpl. now rewrite String.eqb_refl. Qed.

Lemma answer_rejected (id : string) (reason : JS.value) :
  Bridge.answer id (Some (Bridge.RejectedMessageData (JS.VStr id) reason))
    = JS.Throw reason.
Proof. unfold Bridge.answer. simpl. now rewrite String.eqb_refl. Qed.



(** ** The factory and its wrappers *)
Section HostFacts.
Import JS Transfer Bridge Host.


(** What [yellowlet] leaves behind: the host as it was, or one session more
    and the registration of its wrapper. *)
Lemma yellowlet_cases (js : engine) (f : value) (h : host) :
  snd (yellowlet js f h) = h \/
  exists open,
    snd (yellowlet js f h) =
      {| workers := workers h ++ [worker_postMessage open (new_Worker js f)];
         registry := registry h
                       ++ [({| wname := fun_name f; wlength := fun_length f;
                               wworker := length (workers h) |},
                            length (workers h))];
         timers := timers h; now := now h |}.
Proof.
  unfold yellowlet.
  destruct (negb (typeof f =? "function")); [now left|].
  destruct (negb (Latin1 (fun_source f))); [now left|].
  right. eexists. reflexivity.
Qed.

(** A call is [run] on the wrapper's session; every other part of the host
    stays as it is. *)
Lemma call_run (pf : platform) (w : wrapper) (id : string) (this : value)
    (args : list value) (h h2 : host) (r : completion value) :
  call pf w id this args h = Some (r, h2) ->
  exists s,
    workers h !! wworker w = Some s /\
    r = fst (run pf id this args s) /\
    workers h2 = <[wworker w := snd (run pf id this args s)]> (workers h) /\
    registry h2 = registry h /\ timers h2 = timers h /\ now h2 = now h.
Proof.
  unfold call. destruct (workers h !! wworker w) as [s|] eqn:E; [|discriminate].
  destruct (run pf id this args s) as [r' s'] eqn:Er.
  intros [= <- <-]. exists s. rewrite Er. simpl. repeat split; reflexivity.
Qed.


(** With no timeout pending, the passing of time moves the clock and
    nothing else. *)
Lemma elapse_no_timers (n : nat) (h : host) :
  timers h = [] ->
  elapse n h =
    {| workers := workers h; registry := registry h; timers := [];
       now := now h + n |}.
Proof. intros Ht. unfold elapse. rewrite Ht. reflexivity. Qed.

End HostFacts.




(** C7, as the code has it: neither [yellowlet] nor a call registers a
    timeout, so however much time passes without a call, the session is kept
    as it is, worker, channel and signal word; a call after that runs on the
    same session, and no worker is created for it. *)
Theorem idle_session_is_kept
    (js : JS.engine) (f : JS.value) (h h1 : Host.host) (w : Host.wrapper)
    (n : nat) :
  Host.timers h = [] ->
  Host.yellowlet js f h = (JS.Return w, h1) ->
  Host.timers h1 = [] /\
  Host.workers (Host.elapse n h1) = Host.workers h1 /\
  Host.registry (Host.elapse n h1) = Host.registry h1 /\
  forall pf id this args r h2,
    Host.call pf w id this args (Host.elapse n h1) = Some (r, h2) ->
    length (Host.workers h2) = length (Host.workers h1) /\
    Host.timers h2 = [] /\
    exists s,
      Host.workers h1 !! Host.wworker w = Some s /\
      Host.workers h2 !! Host.wworker w
        = Some (snd (Bridge.run pf id this args s)).
Proof.
  intros Ht Hy.
  assert (Ht1 : Host.timers h1 = []).
  { unfold Host.yellowlet in Hy.
    destruct (negb (JS.typeof f =? "function")); [discriminate|].
    destruct (negb (Host.Latin1 (Host.fun_source f))); [discriminate|].
    injection Hy as _ <-. exact Ht. }
  rewrite (elapse_no_timers n h1 Ht1). simpl.
  split; [exact Ht1|]. split; [reflexivity|]. split; [reflexivity|].
  intros pf id this args r h2 Hc.
  apply call_run in Hc as (s & Hs & _ & Hw & _ & Htm & _).
  simpl in Hs, Hw, Htm. rewrite Hw. split; [apply length_insert|].
  split; [exact Htm|].
  exists s. split; [exact Hs|].
  apply list_lookup_insert_eq. eapply lookup_lt_Some, Hs.
Qed.

Lemma idle_session_is_kept_witness :
  Host.timers Host.boot = [] /\
  fst (Host.yellowlet Host.scenarios Host.double Host.boot)
    = JS.Return {| Host.wname := ""; Host.wlength := 1; Host.wworker := 0 |} /\
  Host.workers
    (Host.elapse 5 (snd (Host.yellowlet Host.scenarios Host.double Host.boot)))
  = Host.workers (snd (Host.yellowlet Host.scenarios Host.double Host.boot)).
Proof.
  split; [reflexivity|]. split; [reflexivity|].
  apply (idle_session_is_kept Host.scenarios Host.double Host.boot _
           {| Host.wname := ""; Host.wlength := 1; Host.wworker := 0 |} 5);
    reflexivity.
Defined.

(** C7, against the claim as stated: five units of time after wrapping
    [x => x * 2], with no call in between, the worker is still alive and no
    timeout was ever pending; the call that follows runs on that same worker
    and the host still has one worker. *)
Lemma idle_worker_outlives_window :
  Host.timers (snd (Host.yellowlet Host.scenarios Host.double Host.boot)) = [] /\
  map Bridge.alive
      (Host.workers
         (Host.elapse 5
            (snd (Host.yellowlet Host.scenarios Host.double Host.boot))))
    = [true] /\
  option_map (fun rh => map Bridge.alive (Host.workers (snd rh)))
    (Host.call Transfer.node
       {| Host.wname := ""; Host.wlength := 1; Host.wworker := 0 |}
       "ab12" JS.VUndefined [JS.VNum 21]
       (Host.elapse 5
          (snd (Host.yellowlet Host.scenarios Host.double Host.boot))))
    = Some [true].
Proof. vm_compute. repeat split; reflexivity. Qed.

(** C1, on the code: wrapping [x => x * 2] and calling the wrapper with 21
    does not return 42.  The call stores Pending in the signal word and then
    throws a [ReferenceError], for the name [isTransferable], before it posts
    anything: no call envelope is queued for the worker, nothing comes back,
    and the signal word is left at Pending. *)
Theorem double_21_is_not_returned (pf : Transfer.platform) (id : string) :
  exists w h h',
    Host.yellowlet Host.scenarios Host.double Host.boot = (JS.Return w, h) /\
    Host.call pf w id JS.VUndefined [JS.VNum 21] h
      = Some (JS.Throw
                (JS.VErr "ReferenceError" "isTransferable is not defined"),
              h') /\
    map Bridge.call_inbox (Host.workers h') = [[]] /\
    map Bridge.parent_inbox (Host.workers h') = [[]] /\
    map Bridge.port_inbox (Host.workers h') = [[]] /\
    map Bridge.signal (Host.workers h') = [1%Z] /\
    map (fun s => skipn 1 (Bridge.log s)) (Host.workers h')
      = [[Bridge.CallerStore 1]].
Proof.
  exists {| Host.wname := ""; Host.wlength := 1; Host.wworker := 0 |},
    (snd (Host.yellowlet Host.scenarios Host.double Host.boot)),
    (match Host.call pf
             {| Host.wname := ""; Host.wlength := 1; Host.wworker := 0 |}
             id JS.VUndefined [JS.VNum 21]
             (snd (Host.yellowlet Host.scenarios Host.double Host.boot)) with
     | Some (_, h') => h'
     | None => Host.boot
     end).
  vm_compute. repeat split; reflexivity.
Qed.

(** C2, on the code: wrapping a function that throws [new Error('boom')] and
    calling the wrapper does not throw that error.  The call throws a
    [ReferenceError] of its own before it posts anything; the function is
    never run. *)
Theorem boom_is_not_rethrown (pf : Transfer.platform) (id : string) :
  exists w h h',
    Host.yellowlet Host.scenarios Host.boom Host.boot = (JS.Return w, h) /\
    Host.call pf w id JS.VUndefined [] h
      = Some (JS.Throw
                (JS.VErr "ReferenceError" "isTransferable is not defined"),
              h') /\
    JS.VErr "ReferenceError" "isTransferable is not defined"
      <> JS.VErr "Error" "boom" /\
    map Bridge.call_inbox (Host.workers h') = [[]] /\
    map Bridge.parent_inbox (Host.workers h') = [[]] /\
    map Bridge.port_inbox (Host.workers h') = [[]] /\
    map (fun s => skipn 1 (Bridge.log s)) (Host.workers h')
      = [[Bridge.CallerStore 1]].
Proof.
  exists {| Host.wname := ""; Host.wlength := 0; Host.wworker := 0 |},
    (snd (Host.yellowlet Host.scenarios Host.boom Host.boot)),
    (match Host.call pf
             {| Host.wname := ""; Host.wlength := 0; Host.wworker := 0 |}
             id JS.VUndefined []
             (snd (Host.yellowlet Host.scenarios Host.boom Host.boot)) with
     | Some (_, h') => h'
     | None => Host.boot
     end).
  vm_compute. repeat split; try reflexivity. discriminate.
Qed.

(** C4, on the code: two calls in a row on the wrapper of [x => x * 2], with
    1 and then with 2.  Each call stores Pending and throws a
    [ReferenceError] before it posts; neither waits, neither stores
    Available, and the signal word is at Pending after each of them.  The
    results 2 and 4 are never computed. *)
Theorem sequential_calls_both_throw
    (pf : Transfer.platform) (id1 id2 : string) :
  exists w h h1 h2,
    Host.yellowlet Host.scenarios Host.double Host.boot = (JS.Return w, h) /\
    Host.call pf w id1 JS.VUndefined [JS.VNum 1] h
      = Some (JS.Throw
                (JS.VErr "ReferenceError" "isTransferable is not defined"),
              h1) /\
    Host.call pf w id2 JS.VUndefined [JS.VNum 2] h1
      = Some (JS.Throw
                (JS.VErr "ReferenceError" "isTransferable is not defined"),
              h2) /\
    map Bridge.signal (Host.workers h1) = [1%Z] /\
    map Bridge.signal (Host.workers h2) = [1%Z] /\
    map Bridge.call_inbox (Host.workers h2) = [[]] /\
    map Bridge.parent_inbox (Host.workers h2) = [[]] /\
    map (fun s => skipn 1 (Bridge.log s)) (Host.workers h2)
      = [[Bridge.CallerStore 1; Bridge.CallerStore 1]].
Proof.
  pose (w := {| Host.wname := ""; Host.wlength := 1; Host.wworker := 0 |}).
  pose (h := snd (Host.yellowlet Host.scenarios Host.double Host.boot)).
  pose (h1 := match Host.call pf w id1 JS.VUndefined [JS.VNum 1] h
              with Some (_, h') => h' | None => Host.boot end).
  pose (h2 := match Host.call pf w id2 JS.VUndefined [JS.VNum 2] h1
              with Some (_, h') => h' | None => Host.boot end).
  exists w, h, h1, h2. vm_compute. repeat split; reflexivity.
Qed.

(** * More of the code *)

(** ** The end of [run] *)

(** The end of [run] returns the value of a fulfilled envelope that carries
    the call's id, and throws the reason of a rejected one as it is. *)
Theorem matching_envelope_is_answered (id : string) (v : JS.value) :
  Bridge.answer id (Some (Bridge.FulfilledMessageData (JS.VStr id) v))
    = JS.Return v /\
  Bridge.answer id (Some (Bridge.RejectedMessageData (JS.VStr id) v))
    = JS.Throw v.
Proof. split; [apply answer_fulfilled | apply answer_rejected]. Qed.

(** The end of [run] throws the empty object for a message that carries
    another id than the call's, and for one that carries the call's id and a
    type that is neither fulfilled nor rejected. *)
Theorem mismatched_envelope_throws_empty_object
    (id : string) (data : JS.value) :
  JS.is_string (JS.get data "id") id = false \/
  (JS.is_string (JS.get data "type") "fulfilled" = false /\
   JS.is_string (JS.get data "type") "rejected" = false) ->
  Bridge.answer id (Some data) = JS.Throw (JS.VObj []).
Proof.
  intros Hbad. unfold Bridge.answer.
  destruct Hbad as [-> | [-> ->]]; [reflexivity|].
  now destruct (JS.is_string (JS.get data "id") id).
Qed.

Lemma mismatched_envelope_throws_empty_object_witness :
  JS.is_string
    (JS.get (Bridge.FulfilledMessageData (JS.VStr "zzzz") (JS.VNum 1)) "id")
    "ab12" = false /\
  Bridge.answer "ab12"
    (Some (Bridge.FulfilledMessageData (JS.VStr "zzzz") (JS.VNum 1)))
    = JS.Throw (JS.VObj []).
Proof.
  split; [reflexivity|].
  apply (mismatched_envelope_throws_empty_object "ab12"
           (Bridge.FulfilledMessageData (JS.VStr "zzzz") (JS.VNum 1))).
  left. reflexivity.
Defined.

(** ** The dispatcher of [workerMain] *)

(** The worker stores 2 in the signal word only after it has posted a settle
    envelope: a turn of the worker adds, for each envelope it posts, the post,
    the store of 2 and the notification, in that order, and nothing else. *)
Theorem worker_resolves_after_posting
    (pf : Transfer.platform) (s : Bridge.session) :
  exists ms,
    Bridge.log (Bridge.worker_turn pf s) = Bridge.log s ++ Bridge.settles ms /\
    Bridge.parent_inbox (Bridge.worker_turn pf s)
      = Bridge.parent_inbox s ++ ms /\
    Bridge.port_inbox (Bridge.worker_turn pf s) = Bridge.port_inbox s.
Proof.
  destruct (worker_turn_dispatched pf s) as [ms [Hl _ Hp Hq]].
  exists ms. auto.
Qed.



(** While the promise of the function is pending, and when it settles with a
    value or a reason that does not clone, the listener on the worker's port
    posts nothing and does not touch the signal word: the session is as it
    was. *)
Theorem dispatcher_posts_nothing
    (pf : Transfer.platform) (id : string) (this : JS.value)
    (args : list JS.value) (s : Bridge.session) :
  (forall m payload,
     Lifecycle.envelope_for (JS.VStr id)
       (Bridge.fn s (if JS.is_globalThis this then JS.VUndefined else this)
          args)
       = Some (m, payload) ->
     JS.structuredClone (Transfer.serializes pf)
       (List.filter (Transfer.isTransferable pf) [payload]) payload = None) ->
  Bridge.on_call pf (Bridge.call_envelope id this args) s = s.
Proof.
  intros H.
  unfold Bridge.on_call, Bridge.call_envelope, Bridge.CallMessageData.
  cbn [JS.get JS.field String.eqb Ascii.eqb Bool.eqb Bridge.settle
       Bridge.spread].
  destruct (Bridge.fn s _ args) as [v|r|]; [| |reflexivity];
    unfold Bridge.global_postMessage.
  - now rewrite (settle_envelope_stuck pf _ (JS.VStr id) (JS.Fulfils v) _ v
                   eq_refl (H _ _ eq_refl)).
  - now rewrite (settle_envelope_stuck pf _ (JS.VStr id) (JS.Rejects r) _ r
                   eq_refl (H _ _ eq_refl)).
Qed.

Lemma dispatcher_posts_nothing_witness :
  JS.structuredClone (Transfer.serializes Transfer.node)
    (List.filter (Transfer.isTransferable Transfer.node)
       [JS.VFun "" 0 "() => 1"])
    (JS.VFun "" 0 "() => 1") = None /\
  Bridge.on_call Transfer.node
    (Bridge.call_envelope "ab12" JS.VUndefined [])
    (Host.fresh Lifecycle.more Lifecycle.thunk)
  = Host.fresh Lifecycle.more Lifecycle.thunk.
Proof.
  split; [reflexivity|].
  apply (dispatcher_posts_nothing Transfer.node "ab12" JS.VUndefined []
           (Host.fresh Lifecycle.more Lifecycle.thunk)).
  intros m payload He. vm_compute in He. injection He as <- <-. reflexivity.
Defined.

(** ** The factory *)

(** For a function whose source text has a character above U+00FF,
    [yellowlet] throws the [InvalidCharacterError] of [btoa] before it
    creates anything: the host is left as it was. *)
Theorem unencodable_source_is_refused
    (js : JS.engine) (f : JS.value) (h : Host.host) :
  JS.typeof f = "function" ->
  Host.Latin1 (Host.fun_source f) = false ->
  Host.yellowlet js f h = (JS.Throw Host.InvalidCharacterError, h).
Proof.
  intros Hf Hl. unfold Host.yellowlet. now rewrite Hf, Hl.
Qed.

Lemma unencodable_source_is_refused_witness :
  JS.typeof Lifecycle.arrow = "function" /\
  Host.Latin1 (Host.fun_source Lifecycle.arrow) = false /\
  Host.yellowlet Host.scenarios Lifecycle.arrow Host.boot
    = (JS.Throw (JS.VErr "InvalidCharacterError" "Invalid character"),
       Host.boot).
Proof.
  split; [reflexivity|]. split; [reflexivity|].
  apply (unencodable_source_is_refused Host.scenarios Lifecycle.arrow
           Host.boot); reflexivity.
Defined.

(** ** A call *)

(** Every call of a wrapper throws a [ReferenceError] for the name
    [isTransferable], whatever the function, the receiver and the arguments:
    [run] stores Pending in the signal word and reads the name before it
    posts.  The session keeps its queues, its signal word is left at Pending,
    the store is all that the call adds to the log, and the rest of the host
    is as it was. *)
Theorem call_throws_ReferenceError
    (pf : Transfer.platform) (w : Host.wrapper) (id : string)
    (this : JS.value) (args : list JS.value) (h h' : Host.host)
    (r : JS.completion JS.value) :
  Host.call pf w id this args h = Some (r, h') ->
  r = JS.Throw (JS.VErr "ReferenceError" "isTransferable is not defined") /\
  exists s s',
    Host.workers h !! Host.wworker w = Some s /\
    Host.workers h' = <[Host.wworker w := s']> (Host.workers h) /\
    Bridge.signal s' = 1%Z /\
    Bridge.log s' = Bridge.log s ++ [Bridge.CallerStore 1] /\
    Bridge.call_inbox s' = Bridge.call_inbox s /\
    Bridge.port_inbox s' = Bridge.port_inbox s /\
    Bridge.parent_inbox s' = Bridge.parent_inbox s /\
    Bridge.worker_inbox s' = Bridge.worker_inbox s /\
    Host.registry h' = Host.registry h /\
    Host.timers h' = Host.timers h.
Proof.
  intros Hc. apply call_run in Hc as (s & Hs & -> & Hw & Hr & Ht & _).
  split; [reflexivity|].
  exists s, (snd (Bridge.run pf id this args s)).
  repeat split; try assumption; reflexivity.
Qed.

Lemma call_throws_ReferenceError_witness :
  Host.call Transfer.node Lifecycle.handle "ab12" JS.VUndefined [JS.VNum 21]
    Lifecycle.wrapped
    = Some (JS.Throw
              (JS.VErr "ReferenceError" "isTransferable is not defined"),
            Lifecycle.after_call) /\
  map Bridge.signal (Host.workers Lifecycle.wrapped) = [0%Z] /\
  map Bridge.signal (Host.workers Lifecycle.after_call) = [1%Z].
Proof.
  assert (Hc : Host.call Transfer.node Lifecycle.handle "ab12" JS.VUndefined
                 [JS.VNum 21] Lifecycle.wrapped
               = Some (JS.Throw
                         (JS.VErr "ReferenceError"
                            "isTransferable is not defined"),
                       Lifecycle.after_call)).
  { reflexivity. }
  split; [exact Hc|]. split; [reflexivity|].
  destruct (call_throws_ReferenceError Transfer.node Lifecycle.handle "ab12"
              JS.VUndefined [JS.VNum 21] Lifecycle.wrapped
              Lifecycle.after_call _ Hc)
    as (_ & s & s' & Hs & -> & H1 & _).
  vm_compute in Hs. injection Hs as <-. simpl. now rewrite H1.
Defined.

(** ** Wrappers and their workers *)
Section Ownership.
Import JS Transfer Bridge Host Lifecycle.

(** The callbacks of the realm terminate workers and do nothing else. *)
Lemma terminate_frame (n : nat) (h : host) :
  registry (terminate n h) = registry h /\
  timers (terminate n h) = timers h /\
  now (terminate n h) = now h /\
  length (workers (terminate n h)) = length (workers h).
Proof.
  unfold terminate. destruct (workers h !! n); simpl;
    rewrite ?length_insert; auto.
Qed.

Lemma tasks_frame {A : Type} (task_of : A -> task) (l : list A) (h : host) :
  registry (fold_left (fun h e => run_task (task_of e) h) l h) = registry h /\
  timers (fold_left (fun h e => run_task (task_of e) h) l h) = timers h /\
  length (workers (fold_left (fun h e => run_task (task_of e) h) l h))
    = length (workers h).
Proof.
  revert h. induction l as [|e l IH]; intros h; simpl; [auto|].
  destruct (IH (run_task (task_of e) h)) as (Hr & Ht & Hl).
  rewrite Hr, Ht, Hl. destruct (task_of e) as [n]. simpl.
  destruct (terminate_frame n h) as (-> & -> & _ & ->). auto.
Qed.

Lemma terminate_twice (n : nat) (h : host) :
  workers (terminate n (terminate n h)) = workers (terminate n h).
Proof.
  unfold terminate at 2 3. destruct (workers h !! n) as [s|] eqn:E.
  - unfold terminate. simpl.
    rewrite list_lookup_insert_eq by (eapply lookup_lt_Some, E). simpl.
    apply list_insert_insert_eq.
  - unfold terminate. now rewrite E.
Qed.

(** However many times the worker [n] is told to terminate, and at least
    once, the workers are as after one [terminate]. *)
Lemma tasks_same_worker {A : Type} (task_of : A -> task) (n : nat)
    (l : list A) (h : host) :
  (forall e, In e l -> task_of e = Terminate n) -> l <> [] ->
  workers (fold_left (fun h e => run_task (task_of e) h) l h)
    = workers (terminate n h).
Proof.
  revert h. induction l as [|e l IH]; intros h Hall Hne; [contradiction|].
  simpl. rewrite (Hall e) by now left. simpl.
  destruct l as [|e' l]; [reflexivity|].
  rewrite IH.
  - apply terminate_twice.
  - intros x Hx. apply Hall. now right.
  - discriminate.
Qed.

(** A turn of a worker keeps the registry and the number of workers. *)
Lemma work_frame (pf : platform) (n : nat) (h : host) :
  registry (work pf n h) = registry h /\
  timers (work pf n h) = timers h /\
  length (workers (work pf n h)) = length (workers h).
Proof.
  unfold work. destruct (workers h !! n); simpl; rewrite ?length_insert; auto.
Qed.

Lemma yellowlet_owned (js : engine) (f : value) (h : host) :
  owned h -> owned (snd (yellowlet js f h)).
Proof.
  intros Ho. destruct (yellowlet_cases js f h) as [-> | (open & ->)];
    [exact Ho|].
  intros w n Hin. simpl in Hin. simpl. rewrite length_app. simpl.
  apply in_app_or in Hin as [Hin | [[= <- <-] | []]].
  - destruct (Ho w n Hin). split; [assumption | lia].
  - simpl. split; [reflexivity | lia].
Qed.

Lemma yellowlet_unshared (js : engine) (f : value) (h : host) :
  owned h -> unshared h -> unshared (snd (yellowlet js f h)).
Proof.
  intros Ho Hu. destruct (yellowlet_cases js f h) as [-> | (open & ->)];
    [exact Hu|].
  unfold unshared. simpl. rewrite List.map_app. simpl.
  apply List.NoDup_app.
  - exact Hu.
  - repeat constructor. intros [].
  - intros n Hn [<- | []].
    apply in_map_iff in Hn as ([w n'] & Heq & Hin). simpl in Heq.
    destruct (Ho w n' Hin) as [_ Hlt]. lia.
Qed.

Lemma filter_unshared (p : wrapper * nat -> bool) (l : list (wrapper * nat)) :
  List.NoDup (List.map snd l) ->
  List.NoDup (List.map snd (List.filter p l)).
Proof.
  induction l as [|e l IH]; intros Hn; simpl; [constructor|].
  simpl in Hn. inversion Hn as [|? ? Hnot Hrest]; subst.
  destruct (p e); [|now apply IH].
  simpl. constructor; [|now apply IH].
  intros Hin. apply Hnot.
  apply in_map_iff in Hin as (x & Hx & Hf).
  apply filter_In in Hf as [Hf _]. apply in_map_iff. eauto.
Qed.

(** On every host that a program can get to, the registry holds for each
    wrapper the worker it closes over, that worker exists, and no worker is
    held twice. *)
Lemma reachable_owned (h : host) : reachable h -> owned h /\ unshared h.
Proof.
  induction 1 as [ | js f h _ [Ho Hu] | pf w id this args h r h' _ [Ho Hu] Hc
                   | n h _ [Ho Hu] | w h _ [Ho Hu] | pf n h _ [Ho Hu] ].
  - split; [intros w n [] | constructor].
  - split; [now apply yellowlet_owned | now apply yellowlet_unshared].
  - apply call_run in Hc as (s & _ & _ & Hw & Hr & _).
    split.
    + intros w0 n Hin. rewrite Hr in Hin. rewrite Hw, length_insert.
      now apply Ho.
    + unfold unshared. now rewrite Hr.
  - unfold elapse.
    match goal with
    | |- context [fold_left ?g ?l ?h0] =>
        destruct (tasks_frame snd l h0) as (Hr & _ & Hl)
    end.
    split.
    + intros w k Hin. rewrite Hr in Hin. rewrite Hl. now apply Ho.
    + unfold unshared. now rewrite Hr.
  - unfold collect.
    match goal with
    | |- context [fold_left ?g ?l ?h0] =>
        destruct (tasks_frame (fun e : wrapper * nat => Terminate (snd e))
                    l h0) as (Hr & _ & Hl)
    end.
    split.
    + intros w0 n Hin. rewrite Hr in Hin. rewrite Hl. simpl in Hin |- *.
      apply filter_In in Hin as [Hin _]. now apply Ho.
    + unfold unshared. rewrite Hr. simpl. now apply filter_unshared.
  - destruct (work_frame pf n h) as (Hr & _ & Hl). split.
    + intros w0 k Hin. rewrite Hr in Hin. rewrite Hl. now apply Ho.
    + unfold unshared. now rewrite Hr.
Qed.







End Ownership.

Lemma unshared_same (l : list (Host.wrapper * nat)) (w w' : Host.wrapper)
    (n : nat) :
  List.NoDup (List.map snd l) -> In (w, n) l -> In (w', n) l -> w = w'.
Proof.
  induction l as [|e l IH]; intros Hn Hw Hw'; [destruct Hw|].
  simpl in Hn. inversion Hn as [|? ? Hnot Hrest]; subst.
  destruct Hw as [-> | Hw], Hw' as [Ew | Hw'].
  - now injection Ew.
  - exfalso. apply Hnot. simpl. apply in_map_iff. now exists (w', n).
  - exfalso. apply Hnot. subst e. simpl. apply in_map_iff. now exists (w, n).
  - now apply IH.
Qed.

(** On every host that a program can get to, a wrapper that is registered
    for finalization is registered with the worker that it closes over, that
    worker exists, and it is held for no other wrapper: one wrapper, one
    worker. *)
Theorem wrapper_owns_its_worker
    (h : Host.host) (w : Host.wrapper) (n : nat) :
  Host.reachable h ->
  In (w, n) (Host.registry h) ->
  Host.wworker w = n /\
  is_Some (Host.workers h !! n) /\
  forall w', In (w', n) (Host.registry h) -> w' = w.
Proof.
  intros Hr Hin. destruct (reachable_owned h Hr) as [Ho Hu].
  destruct (Ho w n Hin) as [Hw Hlt].
  split; [exact Hw|]. split; [now apply lookup_lt_is_Some|].
  intros w' Hin'. exact (unshared_same _ _ _ _ Hu Hin' Hin).
Qed.

Lemma wrapper_owns_its_worker_witness :
  Host.reachable
    (snd (Host.yellowlet Host.scenarios Host.boom
            (snd (Host.yellowlet Host.scenarios Host.double Host.boot)))) /\
  In ({| Host.wname := EmptyString; Host.wlength := 0; Host.wworker := 1 |}, 1)
     (Host.registry
        (snd (Host.yellowlet Host.scenarios Host.boom
                (snd (Host.yellowlet Host.scenarios Host.double Host.boot))))) /\
  Host.wworker
    {| Host.wname := EmptyString; Host.wlength := 0; Host.wworker := 1 |} = 1.
Proof.
  assert (Hr : Host.reachable
    (snd (Host.yellowlet Host.scenarios Host.boom
            (snd (Host.yellowlet Host.scenarios Host.double Host.boot))))).
  { apply Host.reach_yellowlet, Host.reach_yellowlet, Host.reach_boot. }
  assert (Hin : In
    ({| Host.wname := EmptyString; Host.wlength := 0; Host.wworker := 1 |}, 1)
    (Host.registry
       (snd (Host.yellowlet Host.scenarios Host.boom
               (snd (Host.yellowlet Host.scenarios Host.double Host.boot)))))).
  { vm_compute. right. left. reflexivity. }
  split; [exact Hr|]. split; [exact Hin|].
  exact (proj1 (wrapper_owns_its_worker _ _ _ Hr Hin)).
Defined.

(** When the collector finds a registered wrapper unreachable, on a host that
    a program can get to, the worker of that wrapper is terminated and every
    other session is left as it is; the registrations of the other wrappers
    stay, and the wrapper's own is gone. *)
Theorem collected_wrapper_terminates_its_worker
    (h : Host.host) (w : Host.wrapper) (n : nat) :
  Host.reachable h ->
  In (w, n) (Host.registry h) ->
  exists s,
    Host.workers h !! n = Some s /\
    Host.workers (Host.collect w h)
      = <[n := Bridge.set_alive false s]> (Host.workers h) /\
    forall e, In e (Host.registry (Host.collect w h)) <->
              In e (Host.registry h) /\ snd e <> n.
Proof.
  intros Hr Hin. destruct (reachable_owned h Hr) as [Ho _].
  destruct (Ho w n Hin) as [Hw Hlt].
  destruct (lookup_lt_is_Some_2 _ _ Hlt) as [s Hs].
  exists s. split; [exact Hs|].
  assert (Hmine : forall e,
            In e (Host.registry h) ->
            (Nat.eqb (Host.wworker (fst e)) (Host.wworker w) = true
             <-> snd e = n)).
  { intros [w' n'] He. destruct (Ho w' n' He) as [Hw' _]. simpl.
    rewrite Nat.eqb_eq. split; congruence. }
  unfold Host.collect. cbv zeta.
  match goal with
  | |- context [fold_left ?g ?l ?h0] =>
      destruct (tasks_frame
                  (fun e : Host.wrapper * nat => Host.Terminate (snd e)) l h0)
        as (Hreg & _ & _);
      pose proof (tasks_same_worker
                    (fun e : Host.wrapper * nat => Host.Terminate (snd e))
                    n l h0) as Hwork
  end.
  cbv beta in Hreg, Hwork. split.
  - rewrite Hwork.
    + unfold Host.terminate. simpl. now rewrite Hs.
    + intros e He. apply filter_In in He as [He Hm].
      apply (Hmine e He) in Hm. now rewrite Hm.
    + intros E.
      assert (Hf : In (w, n)
                (List.filter
                   (fun e : Host.wrapper * nat =>
                      Nat.eqb (Host.wworker (fst e)) (Host.wworker w))
                   (Host.registry h))).
      { apply filter_In. split; [exact Hin|]. simpl. apply Nat.eqb_refl. }
      rewrite E in Hf. destruct Hf.
  - intros e. rewrite Hreg. simpl. rewrite filter_In.
    split; intros [He Hm]; (split; [exact He|]).
    + intros E. apply (Hmine e He) in E. rewrite E in Hm. discriminate.
    + apply negb_true_iff.
      destruct (Nat.eqb (Host.wworker (fst e)) (Host.wworker w)) eqn:E;
        [|reflexivity].
      apply (Hmine e He) in E. contradiction.
Qed.

Lemma collected_wrapper_terminates_its_worker_witness :
  Host.reachable
    (snd (Host.yellowlet Host.scenarios Host.boom
            (snd (Host.yellowlet Host.scenarios Host.double Host.boot)))) /\
  map Bridge.alive
    (Host.workers
       (Host.collect
          {| Host.wname := EmptyString; Host.wlength := 0; Host.wworker := 1 |}
          (snd (Host.yellowlet Host.scenarios Host.boom
                  (snd (Host.yellowlet Host.scenarios Host.double
                          Host.boot))))))
    = [true; false].
Proof.
  assert (Hr : Host.reachable
    (snd (Host.yellowlet Host.scenarios Host.boom
            (snd (Host.yellowlet Host.scenarios Host.double Host.boot))))).
  { apply Host.reach_yellowlet, Host.reach_yellowlet, Host.reach_boot. }
  assert (Hin : In
    ({| Host.wname := EmptyString; Host.wlength := 0; Host.wworker := 1 |}, 1)
    (Host.registry
       (snd (Host.yellowlet Host.scenarios Host.boom
               (snd (Host.yellowlet Host.scenarios Host.double Host.boot)))))).
  { vm_compute. right. left. reflexivity. }
  split; [exact Hr|].
  destruct (collected_wrapper_terminates_its_worker _ _ _ Hr Hin)
    as (s & Hs & -> & _).
  vm_compute in Hs. injection Hs as <-. vm_compute. reflexivity.
Defined.





(** ** The two-file variant *)
Section SiblingFacts.
Import JS Transfer Bridge.

Variable pf : platform.
Variable js : Sibling.evaluator.

(** The event that [pEvent] resolves with is the event of a message. *)
Lemma openEvent_MessageEvent (s : session) (event : value) :
  Sibling.openEvent s = Some event ->
  exists data, event = Sibling.MessageEvent data.
Proof.
  unfold Sibling.openEvent. intros H. apply find_some in H as [H _].
  apply in_map_iff in H as (data & <- & _). now exists data.
Qed.

(** An event has no [port]: the module ends where it adds its listener. *)
Lemma start_dies (data : value) (s : session) :
  Sibling.start js (Sibling.MessageEvent data) s = set_alive false s.
Proof. reflexivity. Qed.

(** The worker of a session that does not listen yet never will, and does
    nothing that the caller could see. *)
Lemma sibling_turn (s : session) :
  listening s = false ->
  listening (Sibling.worker_turn pf js s) = false /\
  signal (Sibling.worker_turn pf js s) = signal s /\
  port_inbox (Sibling.worker_turn pf js s) = port_inbox s /\
  log (Sibling.worker_turn pf js s) = log s.
Proof.
  intros Hl. unfold Sibling.worker_turn.
  destruct (alive s); [|auto].
  destruct (Sibling.openEvent s) as [event|] eqn:E; [|auto].
  apply openEvent_MessageEvent in E as [data ->].
  rewrite Hl, start_dies. simpl. auto.
Qed.

End SiblingFacts.

(** In the two-file variant the worker module never gets to listen on its
    port: it reads [port] off the event of the open message and not off the
    message, finds [undefined], and ends when it adds its listener.  So a
    call of the wrapper never returns: it throws out of [postMessage] when
    the call envelope does not clone, and otherwise waits for ever, with the
    signal word at Pending; nothing arrives at the caller's port. *)
Theorem sibling_call_never_returns
    (pf : Transfer.platform) (js : Sibling.evaluator) (this : JS.value)
    (args : list JS.value) (s : Bridge.session) :
  Bridge.listening s = false ->
  (fst (Sibling.wrapper pf js this args s) = JS.Throw Bridge.DataCloneError \/
   fst (Sibling.wrapper pf js this args s) = JS.Blocked) /\
  Bridge.listening (snd (Sibling.wrapper pf js this args s)) = false /\
  Bridge.signal (snd (Sibling.wrapper pf js this args s)) = 1%Z /\
  Bridge.port_inbox (snd (Sibling.wrapper pf js this args s))
    = Bridge.port_inbox s.
Proof.
  intros Hl. unfold Sibling.wrapper, Bridge.port_postMessage.
  destruct (JS.structuredClone _ _ _) as [m|].
  - cbn [Bridge.signal Bridge.record Bridge.set_call_inbox Bridge.store
         Bridge.set_signal].
    change (Bridge.Int32 1 =? 1)%Z with true. cbv iota.
    match goal with
    | |- context [Sibling.worker_turn pf js ?x] =>
        destruct (sibling_turn pf js x Hl) as (El & Es & Ep & _);
        remember (Sibling.worker_turn pf js x) as t eqn:Et; clear Et
    end.
    simpl in Es, Ep. rewrite Es. change (Bridge.Int32 1 =? 1)%Z with true.
    simpl. auto.
  - simpl. auto.
Qed.

Lemma sibling_call_never_returns_witness :
  Bridge.listening (Sibling.setup "x => x * 2") = false /\
  fst (Sibling.wrapper Transfer.node Sibling.twice JS.VUndefined [JS.VNum 21]
         (Sibling.setup "x => x * 2")) = JS.Blocked /\
  Bridge.alive
    (snd (Sibling.wrapper Transfer.node Sibling.twice JS.VUndefined
            [JS.VNum 21] (Sibling.setup "x => x * 2"))) = false /\
  Bridge.signal
    (snd (Sibling.wrapper Transfer.node Sibling.twice JS.VUndefined
            [JS.VNum 21] (Sibling.setup "x => x * 2"))) = 1%Z.
Proof.
  split; [reflexivity|]. split; [reflexivity|]. split; [reflexivity|].
  apply (sibling_call_never_returns Transfer.node Sibling.twice JS.VUndefined
           [JS.VNum 21] (Sibling.setup "x => x * 2")).
  reflexivity.
Defined.
